(** * rheader: the package initializer [python/rheader/__init__.py]

    The initializer is the only Python source of the package: a module body
    of three statements (a [__future__] import, the [__all__] list and a
    relative [from ._rheader import ...]).  This development embeds

    - the text of the file, line by line ([Source]);
    - its abstract syntax, as Python's [ast] module would give it ([Ast]);
    - the import-time semantics of that body: executing the statements over
      the module namespace, with the import system as an explicit loader
      ([ImportSystem]);
    - the consumer-side star import, which reads [__all__] ([Star]).

    Module namespaces are dictionaries keyed by [str]: [gmap string value]. *)

From Stdlib Require Import Ascii String.
From stdpp Require Import gmap strings list fin_maps.

Local Open Scope string_scope.

#[local] Set Warnings "-clear-no-such-hyp,-register-all".

(** ** The text of the file *)

Module Source.

(** The double-quote character, and a Python string literal in double
    quotes. *)
Definition dq : string := String "034"%char EmptyString.
Definition quoted (s : string) : string := dq +:+ s +:+ dq.

(** Line feed, the only line terminator the file uses. *)
Definition LF : ascii := "010"%char.

(** The nineteen lines of [__init__.py], in file order.  The last line is
    not terminated by a line feed. *)
Definition source_lines : list string :=
  [ "#!/usr/bin/env python";
    "# -*- coding: utf-8 -*-";
    "#";
    "# @Author: José Sánchez-Gallego (gallegoj@uw.edu)";
    "# @Date: 2025-12-09";
    "# @Filename: __init__.py";
    "# @License: BSD 3-clause (http://www.opensource.org/licenses/BSD-3-Clause)";
    "";
    "from __future__ import annotations";
    "";
    "__all__ = [";
    "    " +:+ quoted "Header" +:+ ",";
    "    " +:+ quoted "Keyword" +:+ ",";
    "    " +:+ quoted "read_header" +:+ ",";
    "    " +:+ quoted "read_header_to_class" +:+ ",";
    "]";
    "";
    "";
    "from ._rheader import Header, Keyword, read_header, read_header_to_class" ].

(** The file as one string: the lines joined by line feeds. *)
Definition source_text : string :=
  String.concat (String LF EmptyString) source_lines.

(** [str.splitlines] restricted to line feeds: a trailing line feed does
    not open a further, empty line. *)
Fixpoint splitlines_aux (cur : string) (s : string) : list string :=
  match s with
  | EmptyString =>
      match cur with
      | EmptyString => []
      | _ => [String.rev cur]
      end
  | String c rest =>
      if Ascii.eqb c LF
      then String.rev cur :: splitlines_aux EmptyString rest
      else splitlines_aux (String c cur) rest
  end.

Definition splitlines (s : string) : list string :=
  splitlines_aux EmptyString s.

(** How the tokenizer sees a physical line: blank, comment only, or
    carrying code. *)
Inductive line_kind : Type := Blank | Comment | Code.

Fixpoint lstrip (s : string) : string :=
  match s with
  | String c rest =>
      if Ascii.eqb c " "%char || Ascii.eqb c "009"%char then lstrip rest else s
  | EmptyString => EmptyString
  end.

Definition classify (l : string) : line_kind :=
  match lstrip l with
  | EmptyString => Blank
  | String c _ => if Ascii.eqb c "#"%char then Comment else Code
  end.

Definition is_code (l : string) : bool :=
  match classify l with Code => true | _ => false end.

(** The physical lines that belong to statements. *)
Definition code_lines (ls : list string) : list string :=
  List.filter is_code ls.

(** One-based numbers of the lines that satisfy [p]. *)
Fixpoint numbers_from (n : nat) (p : string -> bool) (ls : list string) : list nat :=
  match ls with
  | [] => []
  | l :: rest =>
      if p l then n :: numbers_from (S n) p rest else numbers_from (S n) p rest
  end.

Definition code_line_numbers (ls : list string) : list nat :=
  numbers_from 1 is_code ls.

End Source.

(** ** Abstract syntax *)

Module Ast.

(** Dotted module names are kept as their components:
    [rheader._rheader] is [["rheader"; "_rheader"]]. *)
Definition modname : Type := list string.

(** Expressions: the literal fragment a module-level binding can hold. *)
Inductive expr : Type :=
| EStr (s : string)
| EName (id : string)
| EList (elts : list expr).

(** The compound statements of Python's grammar.  The initializer has
    none; the type keeps them so that their absence is a statement about
    the body and not about the type. *)
Inductive compound_kind : Type :=
| KFunctionDef | KClassDef | KIf | KFor | KWhile | KTry | KWith | KMatch.

Inductive stmt : Type :=
| Assign (target : string) (value : expr)
| ImportFrom (level : nat) (module : modname) (names : list string)
| ExprStmt (e : expr)
| Pass
| Compound (k : compound_kind) (name : string) (body : list stmt).

(** The module body of [__init__.py] (lines 9, 11-16 and 19). *)
Definition __all__ : list string :=
  ["Header"; "Keyword"; "read_header"; "read_header_to_class"].

Definition future_import : stmt :=
  ImportFrom 0 ["__future__"] ["annotations"].

Definition all_assignment : stmt :=
  Assign "__all__"
    (EList [EStr "Header"; EStr "Keyword"; EStr "read_header";
            EStr "read_header_to_class"]).

Definition native_import : stmt :=
  ImportFrom 1 ["_rheader"]
    ["Header"; "Keyword"; "read_header"; "read_header_to_class"].

Definition body : list stmt :=
  [future_import; all_assignment; native_import].

(** *** Classification of statements *)

Definition is_import (s : stmt) : bool :=
  match s with ImportFrom _ _ _ => true | _ => false end.

Definition is_all_assignment (s : stmt) : bool :=
  match s with
  | Assign t (EList _) => String.eqb t "__all__"
  | _ => false
  end.







(** *** Unparsing, in the layout of the file

    A list display is written one element per line, indented by four
    spaces, each element followed by a comma; an import is written on one
    line. *)

Definition dotted (m : modname) : string := String.concat "." m.

Fixpoint dots (n : nat) : string :=
  match n with O => "" | S k => "." +:+ dots k end.

Definition unparse_atom (e : expr) : option string :=
  match e with
  | EStr s => Some (Source.quoted s)
  | EName x => Some x
  | EList _ => None
  end.

Fixpoint unparse_elts (es : list expr) : option (list string) :=
  match es with
  | [] => Some []
  | e :: rest =>
      match unparse_atom e, unparse_elts rest with
      | Some a, Some ls => Some (("    " +:+ a +:+ ",") :: ls)
      | _, _ => None
      end
  end.

Definition unparse_stmt (s : stmt) : option (list string) :=
  match s with
  | Assign t (EList es) =>
      match unparse_elts es with
      | Some ls => Some ((t +:+ " = [") :: (ls ++ ["]"])%list)
      | None => None
      end
  | Assign t e =>
      match unparse_atom e with
      | Some a => Some [t +:+ " = " +:+ a]
      | None => None
      end
  | ImportFrom lvl m ns =>
      Some ["from " +:+ dots lvl +:+ dotted m +:+ " import " +:+ String.concat ", " ns]
  | ExprStmt e =>
      match unparse_atom e with
      | Some a => Some [a]
      | None => None
      end
  | Pass => Some ["pass"]
  | Compound _ _ _ => None
  end.

Fixpoint unparse_body (b : list stmt) : option (list string) :=
  match b with
  | [] => Some []
  | s :: rest =>
      match unparse_stmt s, unparse_body rest with
      | Some ls, Some more => Some (ls ++ more)%list
      | _, _ => None
      end
  end.

End Ast.

(** ** Values, exceptions and results *)

Module Py.

(** The exception classes that importing a module can raise here.
    [Other] stands for any further class an extension module's
    initialization may raise; [Unsupported] marks a statement outside the
    straight-line fragment this development executes. *)
Inductive exn : Type :=
| SyntaxError
| ImportError
| ModuleNotFoundError
| AttributeError
| TypeError
| NameError
| Other (cls : string)
| Unsupported.

(** [isinstance(e, ImportError)]: [ModuleNotFoundError] is a subclass of
    [ImportError]. *)
Definition is_ImportError (e : exn) : bool :=
  match e with
  | ImportError | ModuleNotFoundError => true
  | _ => false
  end.

Inductive result (A : Type) : Type :=
| Ok (a : A)
| Raise (e : exn).
Arguments Ok {A} a.
Arguments Raise {A} e.

Definition bind {A B : Type} (r : result A) (k : A -> result B) : result B :=
  match r with
  | Ok a => k a
  | Raise e => Raise e
  end.

Definition succeeds {A : Type} (r : result A) : Prop := exists a, r = Ok a.

Definition raises {A : Type} (r : result A) (p : exn -> bool) : Prop :=
  exists e, r = Raise e /\ p e = true.

(** An object defined by another module is opaque to the initializer: all
    that matters is which object it is, its identity (what [id] returns
    and [is] compares). *)
Definition obj_id : Type := positive.

Inductive value : Type :=
| VStr (s : string)
| VList (items : list value)
| VFeature (name : string)
| VModule (m : Ast.modname)
| VObj (id : obj_id).

End Py.

Notation "'do' x <- r ; k" := (Py.bind r (fun x => k))
(at level 10, x name, r at level 100, k at level 200).

(** ** Import-time semantics *)

Module ImportSystem.
Import Ast Py.

(** What the import system finds when asked for a module by full name:
    nothing, a module whose initialization raises, or a module with its
    attributes. *)
Inductive load_outcome : Type :=
| NotFound
| InitRaises (e : exn)
| Loaded (attrs : gmap string obj_id).

Definition loader : Type := modname -> load_outcome.

Definition import_module (ld : loader) (full : modname) : result (gmap string obj_id) :=
  match ld full with
  | NotFound => Raise ModuleNotFoundError
  | InitRaises e => Raise e
  | Loaded attrs => Ok attrs
  end.

(** [importlib._bootstrap._resolve_name]: a relative import of level
    [S k] drops the last [k] components of the importing package and
    fails beyond the top-level package. *)
Definition resolve_name (pkg : modname) (level : nat) (m : modname) : result modname :=
  match level with
  | O => Ok m
  | S k =>
      if decide (k < length pkg)
      then Ok (take (length pkg - k) pkg ++ m)%list
      else Raise ImportError
  end.

(** The feature names the compiler accepts in [from __future__ import]
    ([__future__.all_feature_names]). *)
Definition all_feature_names : list string :=
  ["nested_scopes"; "generators"; "division"; "absolute_import";
   "with_statement"; "print_function"; "unicode_literals";
   "barry_as_FLUFL"; "generator_stop"; "annotations"].

Definition is_feature (n : string) : bool :=
  existsb (String.eqb n) all_feature_names.

Definition bind_features (names : list string) (ns : gmap string value) : gmap string value :=
  foldl (fun acc n => <[n := VFeature n]> acc) ns names.

(** [IMPORT_FROM]: read the attribute from the imported module; a missing
    attribute is an [ImportError] (cannot import name).  The interpreter
    first looks for an already imported submodule of that name; an
    extension module is not a package and has none. *)
Definition import_from (attrs : gmap string obj_id) (n : string) : result value :=
  match attrs !! n with
  | Some o => Ok (VObj o)
  | None => Raise ImportError
  end.

(** The names of one [from m import a, b, ...], bound left to right. *)
Fixpoint bind_names (attrs : gmap string obj_id) (names : list string)
    (ns : gmap string value) : result (gmap string value) :=
  match names with
  | [] => Ok ns
  | n :: rest =>
      do v <- import_from attrs n ;
      bind_names attrs rest (<[n := v]> ns)
  end.

(** Importing a direct submodule of the package binds the submodule as an
    attribute of the package. *)
Definition bind_submodule (pkg full : modname) (ns : gmap string value) : gmap string value :=
  match drop (length pkg) full with
  | [child] =>
      if decide (take (length pkg) full = pkg)
      then <[child := VModule full]> ns
      else ns
  | _ => ns
  end.

Definition is_future (level : nat) (m : modname) : bool :=
  match level, m with
  | O, [f] => String.eqb f "__future__"
  | _, _ => false
  end.

Fixpoint eval_expr (ns : gmap string value) (e : expr) : result value :=
  match e with
  | EStr s => Ok (VStr s)
  | EName x =>
      match ns !! x with
      | Some v => Ok v
      | None => Raise NameError
      end
  | EList es =>
      do vs <- (fix eval_elts (l : list expr) : result (list value) :=
               match l with
               | [] => Ok []
               | e' :: rest =>
                   do v <- eval_expr ns e' ;
                   do vs <- eval_elts rest ;
                   Ok (v :: vs)
               end) es ;
      Ok (VList vs)
  end.

(** One statement of a module body, executed over the module's
    namespace [ns]; [pkg] is the module's [__package__]. *)
Definition exec_stmt (ld : loader) (pkg : modname) (s : stmt)
    (ns : gmap string value) : result (gmap string value) :=
  match s with
  | Assign t e =>
      do v <- eval_expr ns e ;
      Ok (<[t := v]> ns)
  | ImportFrom level m names =>
      if is_future level m
      then
        if forallb is_feature names
        then Ok (bind_features names ns)
        else Raise SyntaxError
      else
        do full <- resolve_name pkg level m ;
        do attrs <- import_module ld full ;
        bind_names attrs names (bind_submodule pkg full ns)
  | ExprStmt e =>
      do unused <- eval_expr ns e ;
      Ok ns
  | Pass => Ok ns
  | Compound _ _ _ => Raise Unsupported
  end.

Fixpoint exec_body (ld : loader) (pkg : modname) (b : list stmt)
    (ns : gmap string value) : result (gmap string value) :=
  match b with
  | [] => Ok ns
  | s :: rest =>
      do ns' <- exec_stmt ld pkg s ns ;
      exec_body ld pkg rest ns'
  end.

(** The package and its extension module. *)
Definition rheader : modname := ["rheader"].
Definition _rheader : modname := ["rheader"; "_rheader"].

(** [import rheader]: the body of [__init__.py] executed over the
    globals [g0] the import system prepared ([__name__], [__path__],
    [__spec__], ...).  The result is the namespace of the package. *)
Definition import_rheader (ld : loader) (g0 : gmap string value) : result (gmap string value) :=
  exec_body ld rheader body g0.


(** The extension module provides every name of [names]. *)
Definition provides (attrs : gmap string obj_id) (names : list string) : Prop :=
  Forall (fun n => is_Some (attrs !! n)) names.

End ImportSystem.

(** ** The consumer side: [from rheader import *] *)

Module Star.
Import Py.

Definition leading_underscore (n : string) : bool :=
  match n with
  | String c _ => Ascii.eqb c "_"%char
  | EmptyString => false
  end.

Definition as_str (v : value) : result string :=
  match v with
  | VStr s => Ok s
  | _ => Raise TypeError
  end.

Fixpoint as_strs (vs : list value) : result (list string) :=
  match vs with
  | [] => Ok []
  | v :: rest =>
      do s <- as_str v ;
      do ss <- as_strs rest ;
      Ok (s :: ss)
  end.

(** The public names of a module, as [import *] computes them: the items
    of [__all__] when the module defines it (each must be a [str]),
    otherwise every name of the namespace without a leading underscore. *)
Definition public_names (m : gmap string value) : result (list string) :=
  match m !! "__all__" with
  | Some (VList items) => as_strs items
  | Some (VStr s) => Ok (List.map (fun c => String c EmptyString) (list_ascii_of_string s))
  | Some _ => Raise TypeError
  | None =>
      Ok (List.filter (fun n => negb (leading_underscore n)) (elements (dom m)))
  end.

Fixpoint copy_names (m : gmap string value) (names : list string)
    (locals : gmap string value) : result (gmap string value) :=
  match names with
  | [] => Ok locals
  | n :: rest =>
      match m !! n with
      | Some v => copy_names m rest (<[n := v]> locals)
      | None => Raise AttributeError
      end
  end.

(** [from m import *] into the namespace [locals]. *)
Definition star_import (m locals : gmap string value) : result (gmap string value) :=
  do names <- public_names m ;
  copy_names m names locals.

End Star.

(** ** A concrete installation

  An extension module that defines the four names (and one more), used to
  run the definitions above. *)

Module Installed.
Import Ast Py ImportSystem.

Definition native_attrs : gmap string obj_id :=
  {[ "Header" := 1%positive;
     "Keyword" := 2%positive;
     "read_header" := 3%positive;
     "read_header_to_class" := 4%positive;
     "__doc__" := 5%positive ]}.

Definition ld : loader := fun m =>
  if decide (m = _rheader) then Loaded native_attrs else NotFound.

Definition g0 : gmap string value :=
  {[ "__name__" := VStr "rheader"; "__package__" := VStr "rheader" ]}.

(** Two broken installations: the extension module was never built, and an
    extension module built without [read_header_to_class]. *)
Definition ld_absent : loader := fun _ => NotFound.

Definition partial_attrs : gmap string obj_id :=
  {[ "Header" := 1%positive;
     "Keyword" := 2%positive;
     "read_header" := 3%positive ]}.

Definition ld_partial : loader := fun m =>
  if decide (m = _rheader) then Loaded partial_attrs else NotFound.

(** The namespace of the package after [import rheader]. *)
Definition ns : gmap string value :=
  <["read_header_to_class" := VObj 4%positive]>
    (<["read_header" := VObj 3%positive]>
      (<["Keyword" := VObj 2%positive]>
        (<["Header" := VObj 1%positive]>
          (<["_rheader" := VModule _rheader]>
            (<["__all__" := VList [VStr "Header"; VStr "Keyword"; VStr "read_header";
                                   VStr "read_header_to_class"]]>
              (<["annotations" := VFeature "annotations"]> g0)))))).

End Installed.

(** ** Further scenarios

    An extension module whose initialization fails, the package vendored
    under another package, an extension module with further attributes,
    and the namespace of a consumer. *)

Module Scenarios.
Import Ast Py ImportSystem.

Definition ld_broken : loader := fun m =>
  if decide (m = _rheader) then InitRaises (Other "OSError") else NotFound.

Definition vendor : modname := ["acme"; "vendor"; "rheader"].

Definition ld_vendored : loader := fun m =>
  if decide (m = ["acme"; "vendor"; "rheader"; "_rheader"])
  then Loaded Installed.native_attrs else NotFound.

Definition ns_vendored : gmap string value :=
  <["_rheader" := VModule ["acme"; "vendor"; "rheader"; "_rheader"]]> Installed.ns.

Definition other_attrs : gmap string obj_id :=
  {[ "Header" := 1%positive;
     "Keyword" := 2%positive;
     "read_header" := 3%positive;
     "read_header_to_class" := 4%positive;
     "__doc__" := 9%positive;
     "__version__" := 10%positive ]}.

Definition ld_other : loader := fun m =>
  if decide (m = _rheader) then Loaded other_attrs else NotFound.

Definition locals0 : gmap string value :=
  {[ "Header" := VStr "shadowed"; "x" := VStr "kept" ]}.

Definition locals1 : gmap string value :=
  <["read_header_to_class" := VObj 4%positive]>
    (<["read_header" := VObj 3%positive]>
      (<["Keyword" := VObj 2%positive]>
        (<["Header" := VObj 1%positive]> locals0))).

End Scenarios.

(** ** Properties *)

Section Properties.
Import Ast Py ImportSystem Star.

Example installed_import : import_rheader Installed.ld Installed.g0 = Ok Installed.ns.
Proof. vm_compute. reflexivity. Qed.

Lemma bind_ret_r {A : Type} (r : result A) : (do x <- r ; Ok x) = r.
Proof. destruct r; reflexivity. Qed.

Lemma import_rheader_unfold (ld : loader) (g0 : gmap string value) :
  import_rheader ld g0 =
    do attrs <- import_module ld _rheader ;
    bind_names attrs __all__
      (<["_rheader" := VModule _rheader]>
        (<["__all__" := VList (VStr <$> __all__)]>
          (<["annotations" := VFeature "annotations"]> g0))).
Proof.
  unfold import_rheader, body. simpl exec_body.
  rewrite bind_ret_r. reflexivity.
Qed.

(** *** Binding the names of a from-import *)

Lemma bind_names_Ok_inv (attrs : gmap string obj_id) (names : list string)
    (ns ns' : gmap string value) :
  bind_names attrs names ns = Ok ns' ->
  provides attrs names /\
  forall n : string,
    ns' !! n = if decide (n ∈ names) then VObj <$> attrs !! n else ns !! n.
Proof.
  revert ns. induction names as [|a names IH]; intros ns H; simpl in H.
  - injection H as Heq. subst ns'. split; [constructor|].
    intros n. rewrite decide_False; [done | set_solver].
  - unfold import_from in H.
    destruct (attrs !! a) as [o|] eqn:Ha; simpl in H; [|discriminate].
    destruct (IH _ H) as [Hp Hl]. split.
    + constructor; eauto.
    + intros n. rewrite Hl. destruct (decide (n ∈ names)) as [Hin|Hnin].
      * rewrite decide_True; [done | set_solver].
      * destruct (decide (n = a)) as [->|Hne].
        -- rewrite decide_True by set_solver.
           rewrite lookup_insert_eq, Ha. done.
        -- rewrite decide_False by set_solver.
           rewrite lookup_insert_ne by done. done.
Qed.

Lemma bind_names_provides (attrs : gmap string obj_id) (names : list string)
    (ns : gmap string value) :
  provides attrs names -> succeeds (bind_names attrs names ns).
Proof.
  intros Hp. revert ns.
  induction Hp as [|a names Ha Hp IH]; intros ns; cbn [bind_names].
  - by exists ns.
  - destruct Ha as [o Ha]. unfold import_from. rewrite Ha. simpl. apply IH.
Qed.

Lemma bind_names_Raise_inv (attrs : gmap string obj_id) (names : list string)
    (ns : gmap string value) (e : exn) :
  bind_names attrs names ns = Raise e ->
  e = ImportError /\ ~ provides attrs names.
Proof.
  revert ns. induction names as [|a names IH]; intros ns H; simpl in H.
  - discriminate.
  - unfold import_from in H. destruct (attrs !! a) as [o|] eqn:Ha; simpl in H.
    + destruct (IH _ H) as [He Hn]. split; [done|].
      intros Hp. apply Hn. by apply Forall_cons in Hp as [_ Hp].
    + injection H as Heq. split; [done|].
      intros Hp. apply Forall_cons in Hp as [[o Ho] _]. congruence.
Qed.

(** *** Copying names in a star import *)

Lemma copy_names_ok (m : gmap string value) (names : list string)
    (locals : gmap string value) :
  Forall (fun n => is_Some (m !! n)) names ->
  exists locals',
    copy_names m names locals = Ok locals' /\
    forall n : string,
      locals' !! n = if decide (n ∈ names) then m !! n else locals !! n.
Proof.
  intros Hp. revert locals.
  induction Hp as [|a names Ha Hp IH]; intros locals; cbn [copy_names].
  - exists locals. split; [done|].
    intros n. rewrite decide_False; [done | set_solver].
  - destruct Ha as [v Ha]. rewrite Ha. destruct (IH (<[a := v]> locals)) as (locals' & Hc & Hl).
    exists locals'. split; [done|].
    intros n. rewrite Hl. destruct (decide (n ∈ names)) as [Hin|Hnin].
    + rewrite decide_True; [done | set_solver].
    + destruct (decide (n = a)) as [->|Hne].
      * rewrite decide_True by set_solver. rewrite lookup_insert_eq. done.
      * rewrite decide_False by set_solver.
        rewrite lookup_insert_ne by done. done.
Qed.

(** *** What a successful import leaves in the namespace *)

Lemma import_rheader_Ok_inv (ld : loader) (g0 ns : gmap string value) :
  import_rheader ld g0 = Ok ns ->
  exists attrs : gmap string obj_id,
    ld _rheader = Loaded attrs /\
    provides attrs __all__ /\
    forall n : string,
      ns !! n =
        if decide (n ∈ __all__) then VObj <$> attrs !! n
        else (<["_rheader" := VModule _rheader]>
               (<["__all__" := VList (VStr <$> __all__)]>
                 (<["annotations" := VFeature "annotations"]> g0))) !! n.
Proof.
  rewrite import_rheader_unfold. unfold import_module.
  destruct (ld _rheader) as [|e|attrs]; cbn [bind]; try discriminate.
  intros H. destruct (bind_names_Ok_inv _ _ _ _ H) as [Hp Hl]. eauto.
Qed.

(** Looking up a name that is not re-exported, in the namespace built by
    the statements before the from-import. *)
Ltac private_lookup :=
  rewrite decide_False by (unfold __all__; set_solver);
  repeat (rewrite lookup_insert_ne by done);
  by rewrite lookup_insert_eq.

Lemma import_rheader_all (ld : loader) (g0 ns : gmap string value) :
  import_rheader ld g0 = Ok ns ->
  ns !! "__all__" = Some (VList (VStr <$> __all__)).
Proof.
  intros H. destruct (import_rheader_Ok_inv _ _ _ H) as (attrs & _ & _ & Hl).
  rewrite Hl. private_lookup.
Qed.

Lemma import_rheader_bound (ld : loader) (g0 ns : gmap string value) :
  import_rheader ld g0 = Ok ns ->
  Forall (fun n => is_Some (ns !! n)) __all__.
Proof.
  intros H. destruct (import_rheader_Ok_inv _ _ _ H) as (attrs & _ & Hp & Hl).
  apply Forall_forall. intros n Hn.
  rewrite Hl, decide_True by done.
  apply (proj1 (Forall_forall _ _) Hp) in Hn as [o ->]. by eexists.
Qed.

Lemma all_names_spec (n : string) :
  n ∈ __all__ <->
  n = "Header" \/ n = "Keyword" \/ n = "read_header" \/ n = "read_header_to_class".
Proof. unfold __all__. set_solver. Qed.

(** *** The public surface *)



(** The namespace itself holds more than the public names: the feature
    object of the [__future__] import, the [__all__] list and the
    extension module, none of which [__all__] lists. *)
Lemma namespace_private_bindings (ld : loader) (g0 ns : gmap string value) :
  import_rheader ld g0 = Ok ns ->
  ns !! "annotations" = Some (VFeature "annotations") /\
  ns !! "_rheader" = Some (VModule _rheader) /\
  ns !! "__all__" = Some (VList (VStr <$> __all__)).
Proof.
  intros H. destruct (import_rheader_Ok_inv _ _ _ H) as (attrs & _ & _ & Hl).
  repeat split; rewrite Hl; private_lookup.
Qed.

(** *** Re-export *)

(** C2.  Each of the four names is bound in the package to the very
    object the extension module [._rheader] binds to it: same identity,
    nothing wrapped around it. *)
Theorem reexport_identity (ld : loader) (g0 ns : gmap string value) :
  import_rheader ld g0 = Ok ns ->
  exists attrs : gmap string obj_id,
    ld _rheader = Loaded attrs /\
    forall n : string,
      n = "Header" \/ n = "Keyword" \/ n = "read_header" \/
      n = "read_header_to_class" ->
      exists o : obj_id, attrs !! n = Some o /\ ns !! n = Some (VObj o).
Proof.
  intros H. destruct (import_rheader_Ok_inv _ _ _ H) as (attrs & Hld & Hp & Hl).
  exists attrs. split; [done|]. intros n Hn. apply all_names_spec in Hn.
  destruct (proj1 (Forall_forall _ _) Hp n Hn) as [o Ho].
  exists o. split; [done|]. rewrite Hl, decide_True by done. by rewrite Ho.
Qed.

Lemma reexport_identity_witness :
  exists attrs : gmap string obj_id,
    Installed.ld _rheader = Loaded attrs /\
    forall n : string,
      n = "Header" \/ n = "Keyword" \/ n = "read_header" \/
      n = "read_header_to_class" ->
      exists o : obj_id,
        attrs !! n = Some o /\ Installed.ns !! n = Some (VObj o).
Proof.
  apply (reexport_identity Installed.ld Installed.g0 Installed.ns).
  vm_compute. reflexivity.
Defined.

(** *** Star import *)

(** C3.  [__all__] is the list [Header], [Keyword], [read_header],
    [read_header_to_class], in that order and without duplicates; each of
    its entries is bound in the package namespace by the import
    statement; and [from rheader import *] succeeds (so it raises no
    [AttributeError]), binding those four names to the package's objects
    and leaving every other local name as it was. *)
Theorem star_import_consistent (ld : loader) (g0 ns : gmap string value) :
  import_rheader ld g0 = Ok ns ->
  ns !! "__all__" =
    Some (VList [VStr "Header"; VStr "Keyword"; VStr "read_header";
                 VStr "read_header_to_class"]) /\
  public_names ns =
    Ok ["Header"; "Keyword"; "read_header"; "read_header_to_class"] /\
  NoDup ["Header"; "Keyword"; "read_header"; "read_header_to_class"] /\
  Forall (fun n => is_Some (ns !! n))
    ["Header"; "Keyword"; "read_header"; "read_header_to_class"] /\
  forall locals : gmap string value,
    exists locals' : gmap string value,
      star_import ns locals = Ok locals' /\
      forall n : string,
        locals' !! n =
          if decide (n ∈ ["Header"; "Keyword"; "read_header";
                          "read_header_to_class"])
          then ns !! n else locals !! n.
Proof.
  intros H.
  pose proof (import_rheader_all _ _ _ H) as Hall.
  pose proof (import_rheader_bound _ _ _ H) as Hb.
  assert (Hpub : public_names ns = Ok __all__).
  { unfold public_names. rewrite Hall. reflexivity. }
  split; [exact Hall|]. split; [exact Hpub|].
  split; [by apply (bool_decide_unpack _)|]. split; [exact Hb|].
  intros locals. unfold star_import. rewrite Hpub. cbn [bind].
  apply copy_names_ok, Hb.
Qed.

Lemma star_import_consistent_witness :
  Installed.ns !! "__all__" =
    Some (VList [VStr "Header"; VStr "Keyword"; VStr "read_header";
                 VStr "read_header_to_class"]) /\
  public_names Installed.ns =
    Ok ["Header"; "Keyword"; "read_header"; "read_header_to_class"] /\
  NoDup ["Header"; "Keyword"; "read_header"; "read_header_to_class"] /\
  Forall (fun n => is_Some (Installed.ns !! n))
    ["Header"; "Keyword"; "read_header"; "read_header_to_class"] /\
  forall locals : gmap string value,
    exists locals' : gmap string value,
      star_import Installed.ns locals = Ok locals' /\
      forall n : string,
        locals' !! n =
          if decide (n ∈ ["Header"; "Keyword"; "read_header";
                          "read_header_to_class"])
          then Installed.ns !! n else locals !! n.
Proof.
  apply (star_import_consistent Installed.ld Installed.g0 Installed.ns).
  vm_compute. reflexivity.
Defined.

(** *** The shape of the module body *)

Lemma body_statements :
  Forall (fun s => is_all_assignment s = true \/ is_import s = true) body.
Proof.
  unfold body.
  apply Forall_cons; split; [by right|].
  apply Forall_cons; split; [by left|].
  apply Forall_cons; split; [by right|].
  constructor.
Qed.


(** *** Success and failure of the import *)

(** C5.  [import rheader] succeeds exactly when the extension module
    [._rheader] is imported successfully and provides all four names; when
    the extension module is not found, or is imported but lacks one of
    the names, [import rheader] raises an [ImportError]. *)
Theorem import_succeeds_iff (ld : loader) (g0 : gmap string value) :
  (succeeds (import_rheader ld g0) <->
   exists attrs : gmap string obj_id,
     ld _rheader = Loaded attrs /\
     provides attrs ["Header"; "Keyword"; "read_header"; "read_header_to_class"]) /\
  (ld _rheader = NotFound -> raises (import_rheader ld g0) is_ImportError) /\
  (forall attrs : gmap string obj_id,
     ld _rheader = Loaded attrs ->
     ~ provides attrs ["Header"; "Keyword"; "read_header"; "read_header_to_class"] ->
     raises (import_rheader ld g0) is_ImportError).
Proof.
  split; [split|split].
  - intros [ns H]. destruct (import_rheader_Ok_inv _ _ _ H) as (attrs & Hld & Hp & _).
    by exists attrs.
  - intros (attrs & Hld & Hp). rewrite import_rheader_unfold.
    unfold import_module. rewrite Hld. cbn [bind].
    by apply bind_names_provides.
  - intros Hld. rewrite import_rheader_unfold. unfold import_module.
    rewrite Hld. by exists ModuleNotFoundError.
  - intros attrs Hld Hn. rewrite import_rheader_unfold. unfold import_module.
    rewrite Hld. cbn [bind].
    match goal with |- raises ?r _ => destruct r as [ns|e] eqn:Hb end.
    + destruct (bind_names_Ok_inv _ _ _ _ Hb) as [Hp _]. by destruct Hn.
    + destruct (bind_names_Raise_inv _ _ _ _ Hb) as [-> _].
      by exists ImportError.
Qed.

Lemma import_succeeds_iff_witness :
  succeeds (import_rheader Installed.ld Installed.g0) /\
  raises (import_rheader Installed.ld_absent Installed.g0) is_ImportError /\
  raises (import_rheader Installed.ld_partial Installed.g0) is_ImportError.
Proof.
  split; [|split].
  - apply (proj1 (import_succeeds_iff Installed.ld Installed.g0)).
    exists Installed.native_attrs. split; [reflexivity|].
    apply (bool_decide_unpack _). vm_compute. reflexivity.
  - apply (proj1 (proj2 (import_succeeds_iff Installed.ld_absent Installed.g0))).
    reflexivity.
  - apply (proj2 (proj2 (import_succeeds_iff Installed.ld_partial Installed.g0))
             Installed.partial_attrs); [reflexivity|].
    apply (bool_decide_unpack _). vm_compute. reflexivity.
Defined.

Example absent_import :
  import_rheader Installed.ld_absent Installed.g0 = Raise ModuleNotFoundError.
Proof. reflexivity. Qed.

Example partial_import :
  import_rheader Installed.ld_partial Installed.g0 = Raise ImportError.
Proof. vm_compute. reflexivity. Qed.

(** An exception of the extension module's own initialization is not
    turned into anything else: it leaves [import rheader] as it is. *)
Lemma import_propagates (ld : loader) (g0 : gmap string value) (e : exn) :
  ld _rheader = InitRaises e -> import_rheader ld g0 = Raise e.
Proof.
  intros Hld. rewrite import_rheader_unfold. unfold import_module.
  by rewrite Hld.
Qed.

(** *** The text of the file *)

Lemma split_source : Source.splitlines Source.source_text = Source.source_lines.
Proof. vm_compute. reflexivity. Qed.

Lemma unparse_source :
  unparse_body body = Some (Source.code_lines Source.source_lines).
Proof. vm_compute. reflexivity. Qed.

(** C7.  The file has 19 lines; the lines that carry code are lines 9,
    11 to 16 and 19, all others being blank or comments; those lines are
    the text of the three statements of the body; and each of these
    statements is the [__all__] assignment or an import. *)
Theorem source_is_19_lines_of_reexport :
  length (Source.splitlines Source.source_text) = 19 /\
  Source.code_line_numbers (Source.splitlines Source.source_text) =
    [9; 11; 12; 13; 14; 15; 16; 19] /\
  unparse_body body =
    Some (Source.code_lines (Source.splitlines Source.source_text)) /\
  length body = 3 /\
  Forall (fun s => is_all_assignment s = true \/ is_import s = true) body.
Proof.
  rewrite split_source.
  split; [reflexivity|]. split; [by vm_compute|].
  split; [apply unparse_source|]. split; [reflexivity|].
  apply body_statements.
Qed.

End Properties.

(** ** Further behaviour of the import *)

Section Behaviour.
Import Ast Py ImportSystem Star.

(** The seven names the body binds. *)
Lemma bound_name_cases (n : string) :
  n ∉ ["annotations"; "__all__"; "_rheader"; "Header"; "Keyword";
       "read_header"; "read_header_to_class"] ->
(n ∉ __all__) /\ n <> "_rheader" /\ n <> "__all__" /\ n <> "annotations".
Proof. unfold __all__. set_solver. Qed.

(** X1.  The import touches seven names only: every other global the
    import system prepared keeps its value, and no other attribute of the
    extension module reaches the package namespace. *)
Theorem import_frame (ld : loader) (g0 ns : gmap string value) (n : string) :
  import_rheader ld g0 = Ok ns ->
  n ∉ ["annotations"; "__all__"; "_rheader"; "Header"; "Keyword";
       "read_header"; "read_header_to_class"] ->
  ns !! n = g0 !! n.
Proof.
  intros H Hn. destruct (bound_name_cases n Hn) as (Ha & H1 & H2 & H3).
  destruct (import_rheader_Ok_inv _ _ _ H) as (attrs & _ & _ & Hl).
  rewrite Hl, decide_False by done.
  by rewrite !lookup_insert_ne by done.
Qed.

Lemma import_frame_witness :
  Installed.ns !! "__name__" = Installed.g0 !! "__name__".
Proof.
  apply (import_frame Installed.ld Installed.g0 Installed.ns "__name__").
  - vm_compute. reflexivity.
  - apply (bool_decide_unpack _). vm_compute. reflexivity.
Defined.

(** X2.  Every failure of the import is one of three: the extension module
    is not found ([ModuleNotFoundError]), its initialization raised (that
    exception), or it lacks one of the four names ([ImportError]).  The
    body itself raises nothing else. *)
Theorem import_failure_cases (ld : loader) (g0 : gmap string value) (e : exn) :
  import_rheader ld g0 = Raise e ->
  (ld _rheader = NotFound /\ e = ModuleNotFoundError) \/
  ld _rheader = InitRaises e \/
  (exists attrs : gmap string obj_id,
     ld _rheader = Loaded attrs /\ ~ provides attrs __all__ /\ e = ImportError).
Proof.
  rewrite import_rheader_unfold. unfold import_module.
  destruct (ld _rheader) as [|e'|attrs]; cbn [bind]; intros H.
  - left. split; [done|]. congruence.
  - right; left. congruence.
  - right; right. exists attrs.
    destruct (bind_names_Raise_inv _ _ _ _ H) as [-> Hn]. done.
Qed.

Lemma import_failure_cases_witness :
  (Installed.ld_partial _rheader = NotFound /\ ImportError = ModuleNotFoundError) \/
  Installed.ld_partial _rheader = InitRaises ImportError \/
  (exists attrs : gmap string obj_id,
     Installed.ld_partial _rheader = Loaded attrs /\
     ~ provides attrs __all__ /\ ImportError = ImportError).
Proof.
  apply (import_failure_cases Installed.ld_partial Installed.g0 ImportError).
  vm_compute. reflexivity.
Defined.

(** X3.  Nothing is caught: when the initialization of the extension module
    raises, [import rheader] raises that same exception. *)
Theorem init_exception_propagates (ld : loader) (g0 : gmap string value) (e : exn) :
  ld _rheader = InitRaises e -> import_rheader ld g0 = Raise e.
Proof.
  intros Hld. rewrite import_rheader_unfold. unfold import_module.
  by rewrite Hld.
Qed.

Lemma init_exception_propagates_witness :
  import_rheader Scenarios.ld_broken Installed.g0 = Raise (Other "OSError").
Proof.
  apply (init_exception_propagates Scenarios.ld_broken Installed.g0 (Other "OSError")).
  reflexivity.
Defined.

(** X4.  Reloading is idempotent: executing the body again over the
    namespace a successful import produced, with the same extension
    module, succeeds and gives that namespace back. *)
Theorem reload_idempotent (ld : loader) (g0 ns : gmap string value) :
  import_rheader ld g0 = Ok ns -> import_rheader ld ns = Ok ns.
Proof.
  intros H. destruct (import_rheader_Ok_inv _ _ _ H) as (attrs & Hld & Hp & Hl).
  rewrite import_rheader_unfold. unfold import_module. rewrite Hld. cbn [bind].
  match goal with |- bind_names _ _ ?m = _ =>
    destruct (bind_names_provides attrs __all__ m Hp) as [ns2 H2]
  end.
  rewrite H2. f_equal. apply map_eq. intros n.
  destruct (bind_names_Ok_inv _ _ _ _ H2) as [_ Hl2].
  rewrite Hl2, Hl. destruct (decide (n ∈ __all__)) as [Hin|Hnin]; [done|].
  rewrite !lookup_insert. repeat case_decide; try done.
  rewrite Hl, decide_False by done.
  by rewrite !lookup_insert_ne by done.
Qed.

Lemma reload_idempotent_witness :
  import_rheader Installed.ld Installed.ns = Ok Installed.ns.
Proof.
  apply (reload_idempotent Installed.ld Installed.g0 Installed.ns).
  vm_compute. reflexivity.
Defined.

(** *** The package under another name *)

Lemma exec_body_unfold (ld : loader) (pkg : modname) (g0 : gmap string value) :
  pkg <> [] ->
  exec_body ld pkg body g0 =
    do attrs <- import_module ld (pkg ++ ["_rheader"])%list ;
    bind_names attrs __all__
      (<["_rheader" := VModule (pkg ++ ["_rheader"])%list]>
        (<["__all__" := VList (VStr <$> __all__)]>
          (<["annotations" := VFeature "annotations"]> g0))).
Proof.
  intros Hne. unfold body, future_import, all_assignment, native_import.
  cbn [exec_body exec_stmt].
  change (is_future 0 ["__future__"]) with true.
  change (forallb is_feature ["annotations"]) with true.
  change (is_future 1 ["_rheader"]) with false.
  cbn [bind bind_features foldl eval_expr]. rewrite bind_ret_r.
  unfold resolve_name. rewrite decide_True by (destruct pkg; simpl; [done | lia]).
  rewrite Nat.sub_0_r, firstn_all. cbn [bind].
  unfold bind_submodule. rewrite drop_app_length, take_app_length.
  rewrite decide_True by done. reflexivity.
Qed.

(** X5.  The initializer does not name its own package: executed as the
    [__init__] of any package [pkg], it imports the extension module
    [pkg._rheader], succeeds exactly when that module is loaded and
    provides the four names, binds them to that module's objects, and
    binds [_rheader] to that module. *)
Theorem relative_import_follows_package (ld : loader) (pkg : modname)
    (g0 : gmap string value) :
  pkg <> [] ->
  (succeeds (exec_body ld pkg body g0) <->
   exists attrs : gmap string obj_id,
     ld (pkg ++ ["_rheader"])%list = Loaded attrs /\ provides attrs __all__) /\
  forall ns : gmap string value,
    exec_body ld pkg body g0 = Ok ns ->
    ns !! "_rheader" = Some (VModule (pkg ++ ["_rheader"])%list) /\
    exists attrs : gmap string obj_id,
      ld (pkg ++ ["_rheader"])%list = Loaded attrs /\
      forall n : string, n ∈ __all__ -> ns !! n = VObj <$> attrs !! n.
Proof.
  intros Hne. rewrite exec_body_unfold by done. unfold import_module.
  destruct (ld (pkg ++ ["_rheader"])%list) as [|e|attrs]; cbn [bind].
  - split; [split|]; [intros [? ?]; done | intros (? & ? & ?); done | done].
  - split; [split|]; [intros [? ?]; done | intros (? & ? & ?); done | done].
  - split; [split|].
    + intros [ns H]. destruct (bind_names_Ok_inv _ _ _ _ H) as [Hp _]. eauto.
    + intros (attrs' & Heq & Hp). injection Heq as Heq. subst attrs'.
      by apply bind_names_provides.
    + intros ns H. destruct (bind_names_Ok_inv _ _ _ _ H) as [_ Hl]. split.
      * rewrite Hl, decide_False by (unfold __all__; set_solver).
        by rewrite lookup_insert_eq.
      * exists attrs. split; [done|]. intros n Hn.
        by rewrite Hl, decide_True by done.
Qed.

Lemma relative_import_follows_package_witness :
  (succeeds (exec_body Scenarios.ld_vendored Scenarios.vendor body Installed.g0) <->
   exists attrs : gmap string obj_id,
     Scenarios.ld_vendored (Scenarios.vendor ++ ["_rheader"])%list = Loaded attrs /\
     provides attrs __all__) /\
  forall ns : gmap string value,
    exec_body Scenarios.ld_vendored Scenarios.vendor body Installed.g0 = Ok ns ->
    ns !! "_rheader" = Some (VModule (Scenarios.vendor ++ ["_rheader"])%list) /\
    exists attrs : gmap string obj_id,
      Scenarios.ld_vendored (Scenarios.vendor ++ ["_rheader"])%list = Loaded attrs /\
      forall n : string, n ∈ __all__ -> ns !! n = VObj <$> attrs !! n.
Proof.
  apply (relative_import_follows_package Scenarios.ld_vendored Scenarios.vendor
           Installed.g0).
  discriminate.
Defined.

Example vendored_import :
  exec_body Scenarios.ld_vendored Scenarios.vendor body Installed.g0 =
    Ok Scenarios.ns_vendored.
Proof. vm_compute. reflexivity. Qed.

(** X6.  Executed with no parent package (the file run as a script), the
    body raises [ImportError] at the relative import, whatever the import
    system could have loaded. *)
Theorem no_parent_package (ld : loader) (g0 : gmap string value) :
  exec_body ld [] body g0 = Raise ImportError.
Proof. reflexivity. Qed.

(** *** What the package depends on *)

Lemma bind_names_ext (attrs attrs' : gmap string obj_id) (names : list string)
    (ns : gmap string value) :
  (forall n : string, n ∈ names -> attrs !! n = attrs' !! n) ->
  bind_names attrs names ns = bind_names attrs' names ns.
Proof.
  revert ns. induction names as [|a names IH]; intros ns Hagree; [done|].
  cbn [bind_names]. unfold import_from.
  rewrite <- (Hagree a) by set_solver.
  destruct (attrs !! a) as [o|]; cbn [bind]; [|done].
  apply IH. intros n Hn. apply Hagree. set_solver.
Qed.

(** X7.  The package depends on the extension module through the four
    names only: two extension modules that agree on [Header], [Keyword],
    [read_header] and [read_header_to_class] give the same outcome of
    [import rheader], whatever else they define. *)
Theorem import_depends_on_four_names (ld ld' : loader)
    (attrs attrs' : gmap string obj_id) (g0 : gmap string value) :
  ld _rheader = Loaded attrs ->
  ld' _rheader = Loaded attrs' ->
  (forall n : string,
     n = "Header" \/ n = "Keyword" \/ n = "read_header" \/
     n = "read_header_to_class" ->
     attrs !! n = attrs' !! n) ->
  import_rheader ld g0 = import_rheader ld' g0.
Proof.
  intros Hld Hld' Hagree. rewrite !import_rheader_unfold. unfold import_module.
  rewrite Hld, Hld'. cbn [bind]. apply bind_names_ext.
  intros n Hn. apply Hagree. by apply all_names_spec.
Qed.

Lemma import_depends_on_four_names_witness :
  import_rheader Installed.ld Installed.g0 =
  import_rheader Scenarios.ld_other Installed.g0.
Proof.
  apply (import_depends_on_four_names Installed.ld Scenarios.ld_other
           Installed.native_attrs Scenarios.other_attrs Installed.g0).
  - reflexivity.
  - reflexivity.
  - intros n [-> | [-> | [-> | ->]]]; vm_compute; reflexivity.
Defined.

(** *** From the extension module to the consumer *)

(** X8.  [from rheader import *] after [import rheader] hands the consumer
    the extension module's own objects: each of the four names is bound in
    the consumer's namespace to the object [._rheader] binds to it,
    replacing whatever the consumer had under that name, and no other name
    of the consumer changes. *)
Theorem star_import_end_to_end (ld : loader) (g0 ns locals locals' : gmap string value) :
  import_rheader ld g0 = Ok ns ->
  star_import ns locals = Ok locals' ->
  exists attrs : gmap string obj_id,
    ld _rheader = Loaded attrs /\
    (forall n : string,
       n ∈ __all__ ->
       exists o : obj_id, attrs !! n = Some o /\ locals' !! n = Some (VObj o)) /\
    (forall n : string, n ∉ __all__ -> locals' !! n = locals !! n).
Proof.
  intros H Hs.
  destruct (import_rheader_Ok_inv _ _ _ H) as (attrs & Hld & Hp & Hl).
  pose proof (import_rheader_all _ _ _ H) as Hall.
  destruct (copy_names_ok ns __all__ locals (import_rheader_bound _ _ _ H))
    as (l2 & Hc & Hl2).
  assert (locals' = l2) as ->.
  { unfold star_import, public_names in Hs. rewrite Hall in Hs.
    change (as_strs (VStr <$> __all__)) with (Ok (A := list string) __all__) in Hs.
    cbn [bind] in Hs. congruence. }
  exists attrs. split; [done|]. split.
  - intros n Hn. destruct (proj1 (Forall_forall _ _) Hp n Hn) as [o Ho].
    exists o. split; [done|].
    by rewrite Hl2, decide_True, Hl, decide_True, Ho by done.
  - intros n Hn. by rewrite Hl2, decide_False by done.
Qed.

Lemma star_import_end_to_end_witness :
  exists attrs : gmap string obj_id,
    Installed.ld _rheader = Loaded attrs /\
    (forall n : string,
       n ∈ __all__ ->
       exists o : obj_id,
         attrs !! n = Some o /\ Scenarios.locals1 !! n = Some (VObj o)) /\
    (forall n : string,
       n ∉ __all__ -> Scenarios.locals1 !! n = Scenarios.locals0 !! n).
Proof.
  apply (star_import_end_to_end Installed.ld Installed.g0 Installed.ns
           Scenarios.locals0 Scenarios.locals1).
  - vm_compute. reflexivity.
  - vm_compute. reflexivity.
Defined.

End Behaviour.
